(** * dewan_utils.async_io: the AsyncIO writer

    A shallow embedding of [src/dewan_utils/async_io/async_io.py].

    The module is one class, [AsyncIO(ThreadPoolExecutor)], with four
    methods: [__init__], [setup_logger], [queue_save_df] and [_save_df].
    Every one of them is a short sequence of calls into three libraries
    (logging, concurrent.futures and pandas), so the development has three
    layers:

    - the Python notions the methods rely on: exception classes with
      [issubclass], results of calls (returned or raised), truthiness;
    - the part of the three libraries that the methods call, as state
      transformers.  What the operating system and pandas decide (whether a
      file can be opened, what serialisation does to the file system) is
      left to a [Platform] interface, so that the theorems hold for every
      behaviour of these;
    - the four methods, statement by statement, in a state and exception
      monad.

    A run of a method is one step of the model: a task that a worker
    executes is the call [_save_df(df, path)] from a given state, and the
    interleaving of several workers is not modelled.  Every call made on a
    logger is recorded (level, template, arguments) together with the
    answer of [Logger.isEnabledFor] at that moment: a message is emitted
    when the logger is enabled for the level, so that a record is created
    and handed to the logger's handling; filters and the handlers behind
    it are not modelled. *)

From Stdlib Require Import ZArith Ascii String List Bool Lia.
From stdpp Require Import base option list strings gmap.

Local Open Scope Z_scope.

(** ** Python: exception classes *)

(** The built-in classes an I/O call can raise, and classes defined by
    other code, each with its direct base. *)
Inductive exc_class : Type :=
| BaseException
| Exception
| KeyboardInterrupt
| SystemExit
| GeneratorExit
| OSError
| FileNotFoundError
| PermissionError
| IsADirectoryError
| ValueError
| TypeError
| RuntimeError
| AttributeError
| MemoryError
| UserDefined (name : string) (base : exc_class).

#[global] Instance exc_class_eq_dec : EqDecision exc_class.
Proof. solve_decision. Defined.

(** Method resolution order of a class: the class, then its ancestors up to
    [BaseException] (the hierarchy of the language reference, "Exception
    hierarchy"). *)
Fixpoint mro (c : exc_class) : list exc_class :=
  c :: match c with
       | BaseException => []
       | Exception | KeyboardInterrupt | SystemExit | GeneratorExit =>
           [BaseException]
       | OSError | ValueError | TypeError | RuntimeError | AttributeError
       | MemoryError =>
           [Exception; BaseException]
       | FileNotFoundError | PermissionError | IsADirectoryError =>
           [OSError; Exception; BaseException]
       | UserDefined _ base => mro base
       end.

Definition issubclass (c d : exc_class) : bool := bool_decide (d ∈ mro c).

(** ** Python: values and results of a call *)

(** The values the four methods can hand back: [None], or the future that
    [submit] creates. *)
Inductive py_value : Type :=
| PyNone
| PyFuture (id : nat).

(** Arguments of the pool's constructor. *)
Inductive py_arg : Type :=
| ANone
| AInt (n : Z)
| AStr (s : string)
| AEmptyTuple
| ACallable (name : string).

(** A call either returns a value or raises an exception of some class. *)
Inductive result (A : Type) : Type :=
| Returned (a : A)
| Raised (e : exc_class).
Arguments Returned {A} a.
Arguments Raised {A} e.

(** [bool(x)] for a [str] or [None] argument: [None] and the empty string
    are false. *)
Definition truthy (x : option string) : bool :=
  match x with
  | None => false
  | Some s => negb (String.eqb s "")
  end.

(** ** The platform: what the operating system and pandas decide *)

Class Platform : Type := {
  (** states of the file system *)
  FS : Type;
  (** [os.cpu_count()], 0 standing for [None] *)
  cpu_count : nat;
  (** [open(path, 'a')], as [logging.FileHandler] does at construction:
      the state with the file opened, or the [OSError] raised *)
  open_append : string → FS → result FS;
  (** [pathlib.Path(path).parent.is_dir()] *)
  parent_is_dir : string → FS → bool;
  (** [os.path.exists(path)] *)
  path_exists : string → FS → bool;
  (** [pandas.DataFrame] (any object with a [to_excel] method) *)
  DataFrame : Type;
  (** [df.to_excel(path)], every other argument at its default: what the
      call returns or raises, and the file system it leaves *)
  to_excel : DataFrame → string → FS → result py_value * FS;
}.

(** ** logging: loggers, handlers, levels *)

(** The numeric levels of [logging]. *)
Definition NOTSET : Z := 0.
Definition DEBUG : Z := 10.
Definition INFO : Z := 20.
Definition WARNING : Z := 30.
Definition ERROR : Z := 40.

Inductive Handler : Type :=
| StreamHandler                      (* to sys.stderr *)
| FileHandler (filename : string)
| OtherHandler (id : nat).           (* any handler installed by other code *)

Record Logger : Type := mkLogger {
  level : Z;
  handlers : list Handler;
  (** the attribute [disabled] *)
  disabled : bool;
}.

(** A logger is named by the root or by its dotted name:
    [logging.getLogger(name)] hands out one object per name. *)
Inductive logger_ref : Type :=
| RootLogger
| NamedLogger (name : string).

#[global] Instance logger_ref_eq_dec : EqDecision logger_ref.
Proof. solve_decision. Defined.

(** The state of the logging module: the root logger and
    [Logger.manager.loggerDict]. *)
Record Logging : Type := mkLogging {
  root : Logger;
  loggerDict : gmap string Logger;
  (** [Logger.manager.disable], as set by [logging.disable(level)] *)
  disable : Z;
}.

(** A logger as [Logger.__init__] leaves it: level [NOTSET], no handler,
    not disabled. *)
Definition new_logger : Logger :=
  {| level := NOTSET; handlers := []; disabled := false |}.

(** The logging module at interpreter start: the root logger at [WARNING]
    with no handler, no other logger, nothing disabled. *)
Definition logging_at_import : Logging :=
  {| root := {| level := WARNING; handlers := []; disabled := false |};
     loggerDict := ∅;
     disable := 0 |}.

Definition lookup_logger (l : logger_ref) (g : Logging) : Logger :=
  match l with
  | RootLogger => root g
  | NamedLogger n => default new_logger (loggerDict g !! n)
  end.

Definition store_logger (l : logger_ref) (x : Logger) (g : Logging) : Logging :=
  match l with
  | RootLogger =>
      {| root := x; loggerDict := loggerDict g; disable := disable g |}
  | NamedLogger n =>
      {| root := root g; loggerDict := <[n := x]> (loggerDict g);
         disable := disable g |}
  end.

(** [logging.getLogger(name)]: the logger of that name, created on first
    use. *)
Definition logging_getLogger (name : string) (g : Logging) : logger_ref * Logging :=
  match loggerDict g !! name with
  | Some _ => (NamedLogger name, g)
  | None => (NamedLogger name, store_logger (NamedLogger name) new_logger g)
  end.

(** [Logger.addHandler(hdlr)]: appended.  (The library skips a handler that
    is already in the list; a handler constructed for this call is a new
    object and never is.) *)
Definition Logger_addHandler (l : logger_ref) (h : Handler) (g : Logging) : Logging :=
  let x := lookup_logger l g in
  store_logger l
    {| level := level x; handlers := handlers x ++ [h]; disabled := disabled x |} g.

(** [logging.basicConfig(level=lvl)].  As documented: "This function does
    nothing if the root logger already has handlers configured, unless the
    keyword argument force is set to True"; otherwise it installs a
    [StreamHandler] on the root logger and sets the root level. *)
Definition logging_basicConfig (lvl : Z) (g : Logging) : Logging :=
  match handlers (root g) with
  | [] => {| root := {| level := lvl; handlers := [StreamHandler];
                       disabled := disabled (root g) |};
             loggerDict := loggerDict g;
             disable := disable g |}
  | _ :: _ => g
  end.

(** [name.rfind(".")] *)
Fixpoint rfind_dot (name : string) : option nat :=
  match name with
  | EmptyString => None
  | String c rest =>
      match rfind_dot rest with
      | Some i => Some (S i)
      | None => if Ascii.eqb c "."%char then Some O else None
      end
  end.

(** The names under which [Manager._fixupParents] looks for the parent of
    the logger [name], nearest first: [name[:i]] for [i = name.rfind(".")]
    while [i > 0], the next [i] being [name.rfind(".", 0, i - 1)]. *)
Fixpoint ancestors_from (fuel : nat) (name : string) (i : option nat) : list string :=
  match fuel, i with
  | S fuel', Some (S k) =>
      String.substring 0 (S k) name
        :: ancestors_from fuel' name (rfind_dot (String.substring 0 k name))
  | _, _ => []
  end.

Definition ancestor_names (name : string) : list string :=
  ancestors_from (String.length name) name (rfind_dot name).

(** The first level that is set (not [NOTSET]) in a chain of loggers,
    [NOTSET] when none is. *)
Fixpoint first_set_level (chain : list Logger) : Z :=
  match chain with
  | [] => NOTSET
  | x :: rest => if (level x =? 0)%Z then first_set_level rest else level x
  end.

(** [Logger.getEffectiveLevel()]: the logger's own level if set, else that
    of the nearest ancestor that has one, the root logger being the last
    ancestor.  (An ancestor name without a logger counts as a logger at
    [NOTSET], which the search skips as it skips a missing one.) *)
Definition getEffectiveLevel (l : logger_ref) (g : Logging) : Z :=
  match l with
  | RootLogger => first_set_level [root g]
  | NamedLogger n =>
      first_set_level
        (lookup_logger l g
           :: ((λ a, lookup_logger (NamedLogger a) g) <$> ancestor_names n)
           ++ [root g])
  end.

(** [Logger.isEnabledFor(lvl)]: false on a disabled logger, false when
    [logging.disable] was called with [lvl] or more, and otherwise whether
    [lvl] reaches the effective level. *)
Definition isEnabledFor (l : logger_ref) (lvl : Z) (g : Logging) : bool :=
  if disabled (lookup_logger l g) then false
  else if (lvl <=? disable g)%Z then false
  else (getEffectiveLevel l g <=? lvl)%Z.

(** One call of a logging method: on which logger, at which level, with
    which message template and arguments, and whether the logger was
    enabled for the level at that moment.  [Logger.info] and [Logger.error]
    create a record and hand it on only if it was; otherwise the call
    returns without a message. *)
Record LogCall : Type := mkLogCall {
  on_logger : logger_ref;
  levelno : Z;
  msg : string;
  args : list string;
  emits : bool;
}.

(** ** concurrent.futures: the pool's own state *)

(** A queued task: the future created for it, and the call to make.  The
    only callable this class submits is its own bound method [_save_df]. *)
Inductive callable : Type :=
| bound_save_df.

Record WorkItem `{Platform} : Type := mkWorkItem {
  future : nat;
  fn : callable;
  fn_df : DataFrame;
  fn_path : string;
}.

(** The value of the instance attribute [logger]. *)
Inductive attr : Type :=
| Unset                              (* the attribute does not exist yet *)
| TypingUnion                        (* the object Union[None, logging.Logger] *)
| LoggerValue (l : logger_ref).

(** An [AsyncIO] instance: the attributes of [ThreadPoolExecutor] that the
    specification speaks of, and the attribute [logger] that the subclass
    adds. *)
Record AsyncIO `{Platform} : Type := mkAsyncIO {
  _max_workers : nat;
  _initializer : py_arg;
  _initargs : py_arg;
  _shutdown : bool;
  _work_queue : list WorkItem;
  logger : attr;
}.

(** ** The state the methods run in *)

Record World `{Platform} : Type := mkWorld {
  fs : FS;
  logging : Logging;
  (** the calls made on loggers so far, oldest first *)
  log_calls : list LogCall;
}.

Record State `{Platform} : Type := mkState {
  self : AsyncIO;
  world : World;
}.

(** A method body: from a state to what the call returns or raises, and the
    state it leaves. *)
Definition M `{Platform} (A : Type) : Type := State → result A * State.

#[global] Instance M_ret `{Platform} : MRet M :=
  λ A (a : A) st, (Returned a, st).

#[global] Instance M_bind `{Platform} : MBind M :=
  λ A B (k : A → M B) (m : M A) st,
    match m st with
    | (Returned a, st') => k a st'
    | (Raised e, st') => (Raised e, st')
    end.

#[global] Instance M_throw `{Platform} : MThrow exc_class M :=
  λ A (e : exc_class) st, (Raised e, st).

(** [try: body / except cls: handler / else: orelse].  The handler runs when
    the body raises an instance of [cls]; any other exception goes on to the
    caller; [orelse] runs when the body raised nothing, and is itself
    outside the [try]. *)
Definition try_except_else `{Platform} {A B : Type}
    (body : M A) (cls : exc_class) (handler : M B) (orelse : M B) : M B :=
  λ st,
    match body st with
    | (Returned _, st') => orelse st'
    | (Raised e, st') =>
        if issubclass e cls then handler st' else (Raised e, st')
    end.

Definition get_self `{Platform} : M AsyncIO := λ st, (Returned (self st), st).
Definition set_self `{Platform} (s : AsyncIO) : M unit :=
  λ st, (Returned tt, {| self := s; world := world st |}).
Definition get_world `{Platform} : M World := λ st, (Returned (world st), st).
Definition set_world `{Platform} (w : World) : M unit :=
  λ st, (Returned tt, {| self := self st; world := w |}).

Definition set_logging `{Platform} (g : Logging) : M unit :=
  w ← get_world;
  set_world {| fs := fs w; logging := g; log_calls := log_calls w |}.

(** ** concurrent.futures: the two methods of [ThreadPoolExecutor] in use *)

(** Parameters of [ThreadPoolExecutor.__init__] after [self], in order;
    their defaults are [None], [''], [None] and [()]. *)
Definition pool_params : list string :=
  ["max_workers"; "thread_name_prefix"; "initializer"; "initargs"].

(** Binding of the parameter at position [i]: from the positional
    arguments, else from the keywords, else its default; a value from both
    is a [TypeError]. *)
Definition bind_param (i : nat) (name : string) (dflt : py_arg)
    (args : list py_arg) (kwargs : gmap string py_arg) : result py_arg :=
  match args !! i, kwargs !! name with
  | Some _, Some _ => Raised TypeError
  | Some a, None => Returned a
  | None, Some a => Returned a
  | None, None => Returned dflt
  end.

Definition lift `{Platform} {A : Type} (r : result A) : M A :=
  match r with
  | Returned a => mret a
  | Raised e => mthrow e
  end.

(** [ThreadPoolExecutor.__init__(self, *args, **kwargs)]: too many
    positional arguments or an unknown keyword is a [TypeError];
    [max_workers=None] becomes [min(32, (os.cpu_count() or 1) + 4)], a
    number below 1 is a [ValueError]; the initializer must be callable.
    [thread_name_prefix] is bound like the others; the name the library
    derives from it (from a process-wide counter when it is empty) is not
    among the attributes kept here. *)
Definition ThreadPoolExecutor__init__ `{Platform}
    (args : list py_arg) (kwargs : gmap string py_arg) : M py_value :=
  if decide (length pool_params < length args)%nat then mthrow TypeError else
  if decide (dom kwargs ⊆ (list_to_set pool_params : gset string)) then
    max_workers ← lift (bind_param 0 "max_workers" ANone args kwargs);
    thread_name_prefix ← lift (bind_param 1 "thread_name_prefix" (AStr "") args kwargs);
    initializer ← lift (bind_param 2 "initializer" ANone args kwargs);
    initargs ← lift (bind_param 3 "initargs" AEmptyTuple args kwargs);
    n ← match max_workers with
        | ANone => mret (Nat.min 32 ((if cpu_count is O then 1 else cpu_count) + 4))
        | AInt z => if (z <=? 0)%Z then mthrow ValueError else mret (Z.to_nat z)
        | _ => mthrow TypeError
        end;
    match initializer with
    | ANone | ACallable _ => mret tt
    | _ => mthrow TypeError
    end;;
    s ← get_self;
    set_self {| _max_workers := n;
                _initializer := initializer;
                _initargs := initargs;
                _shutdown := false;
                _work_queue := [];
                logger := logger s |};;
    mret PyNone
  else mthrow TypeError.

(** [ThreadPoolExecutor.submit(fn, *args)], as far as the calling thread
    goes: after [shutdown] a [RuntimeError]; otherwise a future is created,
    the work item is put on the queue and the future is returned.  The
    call does not wait for a worker.  The worker threads that [submit] may
    start, and that take items off the queue while the caller goes on, are
    not part of this step; the future is numbered by its place on the
    queue. *)
Definition ThreadPoolExecutor_submit `{Platform}
    (f : callable) (df : DataFrame) (path : string) : M py_value :=
  s ← get_self;
  if _shutdown s then mthrow RuntimeError else
  let id := length (_work_queue s) in
  set_self {| _max_workers := _max_workers s;
              _initializer := _initializer s;
              _initargs := _initargs s;
              _shutdown := _shutdown s;
              _work_queue := _work_queue s ++
                [{| future := id; fn := f; fn_df := df; fn_path := path |}];
              logger := logger s |};;
  mret (PyFuture id).

(** ** logging and pandas, as calls in a method body *)

Definition getLogger `{Platform} (name : string) : M logger_ref :=
  w ← get_world;
  let '(l, g) := logging_getLogger name (logging w) in
  set_logging g;;
  mret l.

(** [logging.FileHandler(filename)] opens the file at once (mode ['a'],
    [delay=False]) and lets the [OSError] of a failed [open] through. *)
Definition FileHandler_new `{Platform} (filename : string) : M Handler :=
  w ← get_world;
  match open_append filename (fs w) with
  | Returned fs' =>
      set_world {| fs := fs'; logging := logging w; log_calls := log_calls w |};;
      mret (FileHandler filename)
  | Raised e => mthrow e
  end.

Definition addHandler `{Platform} (l : logger_ref) (h : Handler) : M unit :=
  w ← get_world;
  set_logging (Logger_addHandler l h (logging w)).

Definition basicConfig `{Platform} (lvl : Z) : M unit :=
  w ← get_world;
  set_logging (logging_basicConfig lvl (logging w)).

(** [target.error(msg, *args)] and [target.info(msg, *args)], where
    [target] is whatever the attribute [logger] holds: on a logger the call
    is recorded, with the answer of [isEnabledFor] that decides whether it
    emits a message, and returns [None]; a missing attribute, or an object
    without these methods, is an [AttributeError]. *)
Definition Logger_log `{Platform} (lvl : Z) (target : attr)
    (msg : string) (args : list string) : M py_value :=
  match target with
  | LoggerValue l =>
      w ← get_world;
      set_world {| fs := fs w; logging := logging w;
                   log_calls := log_calls w ++
                     [{| on_logger := l; levelno := lvl; msg := msg; args := args;
                         emits := isEnabledFor l lvl (logging w) |}] |};;
      mret PyNone
  | Unset | TypingUnion => mthrow AttributeError
  end.

Definition Logger_error `{Platform} := Logger_log ERROR.
Definition Logger_info `{Platform} := Logger_log INFO.

Definition DataFrame_to_excel `{Platform} (df : DataFrame) (path : string) : M py_value :=
  w ← get_world;
  let '(r, fs') := to_excel df path (fs w) in
  set_world {| fs := fs'; logging := logging w; log_calls := log_calls w |};;
  lift r.

(** ** The class AsyncIO *)

(** The module's [__name__]. *)
Definition __name__ : string := "dewan_utils.async_io.async_io".

(** [self.logger = v] *)
Definition setattr_logger `{Platform} (v : attr) : M unit :=
  s ← get_self;
  set_self {| _max_workers := _max_workers s;
              _initializer := _initializer s;
              _initargs := _initargs s;
              _shutdown := _shutdown s;
              _work_queue := _work_queue s;
              logger := v |}.

(** [AsyncIO.setup_logger(self, logger, logfile)], lines 64 to 70. *)
Definition setup_logger `{Platform}
    (logger : option logger_ref) (logfile : option string) : M py_value :=
  logger ← match logger with
            | None => getLogger __name__
            | Some l => mret l
            end;
  match logfile with
  | Some path =>
      if truthy logfile
      then h ← FileHandler_new path; addHandler logger h
      else mret tt
  | None => mret tt
  end;;
  basicConfig NOTSET;;
  setattr_logger (LoggerValue logger);;
  mret PyNone.

(** The first two statements of [__init__], lines 40 and 42:
    [super().__init__()] with no argument, then the assignment of
    [Union[None, logging.Logger]] to [self.logger]. *)
Definition init_prologue `{Platform} : M unit :=
  ThreadPoolExecutor__init__ [] ∅;;
  setattr_logger TypingUnion.

(** [AsyncIO.__init__(self, logger, logfile, *args, **kwargs)], lines 40
    to 43.  [args] and [kwargs] are bound and not used. *)
Definition __init__ `{Platform}
    (logger : option logger_ref) (logfile : option string)
    (args : list py_arg) (kwargs : gmap string py_arg) : M py_value :=
  init_prologue;;
  setup_logger logger logfile;;
  mret PyNone.

(** [AsyncIO.queue_save_df(self, df_to_save, file_path)], line 86: the
    value of [submit] is dropped and the method falls off its end. *)
Definition queue_save_df `{Platform}
    (df_to_save : DataFrame) (file_path : string) : M py_value :=
  ThreadPoolExecutor_submit bound_save_df df_to_save file_path;;
  mret PyNone.

(** [AsyncIO._save_df(self, df_to_save, file_path)], lines 102 to 107. *)
Definition _save_df `{Platform}
    (df_to_save : DataFrame) (file_path : string) : M py_value :=
  try_except_else
    (DataFrame_to_excel df_to_save file_path)
    Exception
    (s ← get_self; Logger_error (logger s) "Unable to save %s" [file_path])
    (s ← get_self; Logger_info (logger s) "Saved %s" [file_path]);;
  mret PyNone.

(** An instance as [object.__new__] hands it to [__init__]: no attribute
    set (the pool's fields hold placeholders until
    [ThreadPoolExecutor.__init__] assigns them). *)
Definition object_new `{Platform} : AsyncIO :=
  {| _max_workers := 0; _initializer := ANone;
     _initargs := ANone; _shutdown := false; _work_queue := [];
     logger := Unset |}.

(** The call [AsyncIO(logger, logfile, *args, **kwargs)]: a new instance is
    initialised and returned, or the exception of [__init__] goes on. *)
Definition AsyncIO_new `{Platform}
    (logger : option logger_ref) (logfile : option string)
    (args : list py_arg) (kwargs : gmap string py_arg)
    (w : World) : result AsyncIO * World :=
  match __init__ logger logfile args kwargs {| self := object_new; world := w |} with
  | (Returned _, st) => (Returned (self st), world st)
  | (Raised e, st) => (Raised e, world st)
  end.

(** ** A concrete platform, for evaluating the methods

    A POSIX-like file system given by its directories and files; a file
    can be opened or written when its parent directory exists.  A frame is
    a table of some shape, or an object whose [to_excel] raises a given
    exception. *)

Record posix_fs : Type := mkPosixFs {
  directories : list string;
  files : list string;
}.

(** The text before the last ['/'] of a path, when there is one. *)
Fixpoint before_last_slash (p : string) : option string :=
  match p with
  | EmptyString => None
  | String c rest =>
      match before_last_slash rest with
      | Some d => Some (String c d)
      | None => if Ascii.eqb c "/"%char then Some EmptyString else None
      end
  end.

(** [str(pathlib.PurePosixPath(p).parent)] for a path without trailing or
    doubled slashes. *)
Definition posix_parent (p : string) : string :=
  match before_last_slash p with
  | Some EmptyString => "/"
  | Some d => d
  | None => "."
  end.

Definition posix_parent_is_dir (p : string) (s : posix_fs) : bool :=
  bool_decide (posix_parent p ∈ directories s).

Definition posix_create (p : string) (s : posix_fs) : posix_fs :=
  if bool_decide (p ∈ files s) then s
  else {| directories := directories s; files := files s ++ [p] |}.

Inductive sample_frame : Type :=
| Table (nrows ncols : nat)
| RaisingFrame (e : exc_class).

Definition sample_platform : Platform :=
  {| FS := posix_fs;
     cpu_count := 8;
     open_append := λ p s,
       if posix_parent_is_dir p s then Returned (posix_create p s)
       else Raised FileNotFoundError;
     parent_is_dir := posix_parent_is_dir;
     path_exists := λ p s, bool_decide (p ∈ files s ∨ p ∈ directories s);
     DataFrame := sample_frame;
     to_excel := λ df p s,
       if posix_parent_is_dir p s then
         match df with
         | RaisingFrame e => (Raised e, s)
         | Table _ _ => (Returned PyNone, posix_create p s)
         end
       else (Raised OSError, s) |}.

(** A file system with the working directory and [/data]. *)
Definition sample_fs : posix_fs :=
  {| directories := ["."; "/"; "/data"]; files := [] |}.

(** The world of a fresh interpreter on that file system. *)
Definition fresh_world : @World sample_platform :=
  @mkWorld sample_platform sample_fs logging_at_import [].

(** [AsyncIO(logfile="run.log")] in the fresh interpreter. *)
Definition sample_with_logfile : result (@AsyncIO sample_platform) * @World sample_platform :=
  @AsyncIO_new sample_platform None (Some "run.log") [] ∅ fresh_world.

(** [AsyncIO(logger=logging.getLogger(), logfile="run.log")] in the fresh
    interpreter: the root logger is passed in. *)
Definition sample_on_root : result (@AsyncIO sample_platform) * @World sample_platform :=
  @AsyncIO_new sample_platform (Some RootLogger) (Some "run.log") [] ∅ fresh_world.

(** [AsyncIO(max_workers=1)] in the fresh interpreter. *)
Definition sample_one_worker : result (@AsyncIO sample_platform) * @World sample_platform :=
  @AsyncIO_new sample_platform None None [] {["max_workers" := AInt 1]} fresh_world.





(** A platform whose file system only counts the calls of [to_excel], each
    of which fails. *)
Definition counting_platform : Platform :=
  {| FS := nat;
     cpu_count := 1;
     open_append := λ _ n, Returned n;
     parent_is_dir := λ _ _, false;
     path_exists := λ _ _, false;
     DataFrame := unit;
     to_excel := λ _ _ n, (Raised OSError, S n) |}.

(** The instance and world after [AsyncIO()] in the fresh interpreter. *)
Definition sample_state : @State sample_platform :=
  match @AsyncIO_new sample_platform None None [] ∅ fresh_world with
  | (Returned s, w) => @mkState sample_platform s w
  | (Raised _, w) => @mkState sample_platform object_new w
  end.

(** ** Predicates of the specification *)

(** Level and template of the report on the outcome [r] of serialising:
    [INFO] and ["Saved %s"] when it returned, [ERROR] and
    ["Unable to save %s"] when it raised. *)
Definition outcome_level (r : result py_value) : Z :=
  match r with
  | Returned _ => INFO
  | Raised _ => ERROR
  end.

Definition outcome_msg (r : result py_value) : string :=
  match r with
  | Returned _ => "Saved %s"
  | Raised _ => "Unable to save %s"
  end.

(** The logging call that reports the outcome [r] of serialising to [p],
    made on [l] while the logging state is [g]. *)
Definition outcome_call (g : Logging) (l : logger_ref) (p : string)
    (r : result py_value) : LogCall :=
  {| on_logger := l; levelno := outcome_level r; msg := outcome_msg r;
     args := [p]; emits := isEnabledFor l (outcome_level r) g |}.



(** The state [_save_df] leaves when it makes the logging call [c]: the
    file system as serialisation left it, the call appended, and nothing
    else touched. *)
Definition after_save `{Platform} (st : State) (fs' : FS) (c : list LogCall) : State :=
  {| self := self st;
     world := {| fs := fs';
                 logging := logging (world st);
                 log_calls := log_calls (world st) ++ c |} |}.


(** Whether the level of the root logger lets a record of level [lvl]
    through. *)
Definition root_isEnabledFor `{Platform} (lvl : Z) (w : World) : bool :=
  (level (root (logging w)) <=? lvl)%Z.

(** The global level lets records of every level through (levels are the
    positive integers). *)
Definition captures_all_levels `{Platform} (w : World) : Prop :=
  ∀ lvl, (0 < lvl)%Z → root_isEnabledFor lvl w = true.

(** The logger that [setup_logger] settles on. *)
Definition chosen_logger (logger : option logger_ref) : logger_ref :=
  match logger with
  | Some l => l
  | None => NamedLogger __name__
  end.

(** The pool as [ThreadPoolExecutor()] configures it, with [v] in the
    attribute [logger]. *)
Definition default_pool `{Platform} (v : attr) : AsyncIO :=
  {| _max_workers := Nat.min 32 ((if cpu_count is O then 1 else cpu_count) + 4);
     _initializer := ANone;
     _initargs := AEmptyTuple;
     _shutdown := false;
     _work_queue := [];
     logger := v |}.

(** The instance with one more work item on its queue. *)
Definition enqueued `{Platform} (s : AsyncIO) (df : DataFrame) (p : string) : AsyncIO :=
  {| _max_workers := _max_workers s;
     _initializer := _initializer s;
     _initargs := _initargs s;
     _shutdown := _shutdown s;
     _work_queue := _work_queue s ++
       [{| future := length (_work_queue s); fn := bound_save_df;
           fn_df := df; fn_path := p |}];
     logger := logger s |}.

(** The instance with [v] in the attribute [logger]. *)
Definition with_logger `{Platform} (s : AsyncIO) (v : attr) : AsyncIO :=
  {| _max_workers := _max_workers s;
     _initializer := _initializer s;
     _initargs := _initargs s;
     _shutdown := _shutdown s;
     _work_queue := _work_queue s;
     logger := v |}.

(** The logging state once [setup_logger] has its logger: unchanged for a
    logger that was passed in, with the module's logger registered
    otherwise. *)
Definition logging_with_chosen (logger : option logger_ref) (g : Logging) : Logging :=
  match logger with
  | Some _ => g
  | None => snd (logging_getLogger __name__ g)
  end.

(** ** Callers: enqueueing in a row, and a worker's run

    [queue_save_df] is called by user code, typically once per frame;
    [_save_df] is called by a worker of the pool for each work item it
    takes.  What follows is the run of one worker over the items it
    takes, one after the other. *)

(** User code that enqueues the frames of a list, one call after the
    other (a [for] loop over [queue_save_df]); an exception of a call ends
    the loop. *)
Fixpoint queue_all `{Platform} (reqs : list (DataFrame * string)) : M py_value :=
  match reqs with
  | [] => mret PyNone
  | (df, p) :: rest => queue_save_df df p;; queue_all rest
  end.

(** [_WorkItem.run] of [concurrent.futures.thread]: the worker makes the
    call [fn(df, path)] and keeps what it returned, or the exception it
    raised ([except BaseException]), for the future.  Nothing is raised
    into the worker's loop. *)
Definition WorkItem_run `{Platform} (i : WorkItem) : M (result py_value) :=
  λ st,
    let '(r, st') :=
      match fn i with
      | bound_save_df => _save_df (fn_df i) (fn_path i) st
      end in
    (Returned r, st').

(** One worker running the items of a list in order; the outcomes are what
    the futures of the items hold afterwards. *)
Fixpoint run_items `{Platform} (items : list WorkItem) : M (list (result py_value)) :=
  match items with
  | [] => mret []
  | i :: rest =>
      r ← WorkItem_run i;
      rs ← run_items rest;
      mret (r :: rs)
  end.

(** Work items for the requests of a list, one per request, for
    [_save_df] with its frame and path, numbered from [n]. *)
Fixpoint new_items `{Platform} (n : nat) (reqs : list (DataFrame * string)) : list WorkItem :=
  match reqs with
  | [] => []
  | (df, p) :: rest =>
      {| future := n; fn := bound_save_df; fn_df := df; fn_path := p |}
        :: new_items (S n) rest
  end.

(** The logging call [c] reports the work item [i] on the logger [l]: it
    carries the item's path and one of the two templates at its level. *)
Definition reports `{Platform} (l : logger_ref) (i : WorkItem) (c : LogCall) : Prop :=
  on_logger c = l ∧ args c = [fn_path i]
  ∧ ((levelno c = INFO ∧ msg c = "Saved %s")
     ∨ (levelno c = ERROR ∧ msg c = "Unable to save %s")).

(** Serialisation raises nothing outside the [Exception] hierarchy. *)
Definition raises_only_errors `{Platform} : Prop :=
  ∀ df p s e s', to_excel df p s = (Raised e, s') → issubclass e Exception = true.

(** The sample instance after [shutdown()]. *)
Definition sample_shut_down : @State sample_platform :=
  @mkState sample_platform
    {| _max_workers := _max_workers (self sample_state);
       _initializer := _initializer (self sample_state);
       _initargs := _initargs (self sample_state);
       _shutdown := true;
       _work_queue := _work_queue (self sample_state);
       logger := logger (self sample_state) |}
    (world sample_state).

(** A platform like the sample one whose frames are all tables. *)
Definition table_platform : Platform :=
  {| FS := posix_fs;
     cpu_count := 8;
     open_append := @open_append sample_platform;
     parent_is_dir := posix_parent_is_dir;
     path_exists := @path_exists sample_platform;
     DataFrame := nat * nat;
     to_excel := λ df p s,
       if posix_parent_is_dir p s then (Returned PyNone, posix_create p s)
       else (Raised OSError, s) |}.

Definition table_world : @World table_platform :=
  @mkWorld table_platform sample_fs logging_at_import [].

(** The instance and world after [AsyncIO()] on that platform. *)
Definition table_state : @State table_platform :=
  @mkState table_platform
    (@default_pool table_platform (LoggerValue (NamedLogger __name__)))
    (snd (@AsyncIO_new table_platform None None [] ∅ table_world)).

(** Two requests: one into [/data], one into a directory that does not
    exist. *)
Definition table_requests : list (@DataFrame table_platform * string) :=
  [((2%nat, 3%nat), "/data/a.xlsx"); ((1%nat, 1%nat), "/nowhere/b.xlsx")].

(** * Proofs *)

Ltac unfold_monad :=
  unfold mbind, mret, mthrow, M_bind, M_ret, M_throw,
    get_self, set_self, get_world, set_world in *.

(** ** Exception classes *)

Lemma mro_head c : c ∈ mro c.
Proof. destruct c; cbn; left. Qed.

(** The ancestors of an ancestor are ancestors. *)
Lemma mro_ancestors c d x : d ∈ mro c → x ∈ mro d → x ∈ mro c.
Proof.
  revert d x. induction c; intros d x Hd Hx; cbn [mro] in Hd.
  15: { apply elem_of_cons in Hd as [-> | Hd]; [exact Hx |].
        cbn [mro]. right. eapply IHc; eassumption. }
  all: set_unfold in Hd; destruct_or?; subst; cbn in Hx |- *;
    set_unfold; tauto.
Qed.

Lemma issubclass_refl c : issubclass c c = true.
Proof. apply bool_decide_eq_true, mro_head. Qed.

Lemma issubclass_trans c d x :
  issubclass c d = true → issubclass d x = true → issubclass c x = true.
Proof.
  unfold issubclass. rewrite !bool_decide_eq_true. apply mro_ancestors.
Qed.

Lemma OSError_is_Exception : issubclass OSError Exception = true.
Proof. reflexivity. Qed.

(** ** The worker: _save_df *)

(** Serialisation returned: one [info] call, and the worker returns. *)
Lemma save_df_returned `{Platform} st df p l v fs' :
  logger (self st) = LoggerValue l →
  to_excel df p (fs (world st)) = (Returned v, fs') →
  _save_df df p st =
    (Returned PyNone,
     after_save st fs' [outcome_call (logging (world st)) l p (Returned v)]).
Proof.
  intros Hl Hx. unfold _save_df, try_except_else, DataFrame_to_excel, lift.
  unfold_monad. rewrite Hx. cbn. rewrite Hl. reflexivity.
Qed.

(** Serialisation raised an instance of [Exception]: one [error] call, and
    the worker returns. *)
Lemma save_df_caught `{Platform} st df p l e fs' :
  logger (self st) = LoggerValue l →
  to_excel df p (fs (world st)) = (Raised e, fs') →
  issubclass e Exception = true →
  _save_df df p st =
    (Returned PyNone,
     after_save st fs' [outcome_call (logging (world st)) l p (Raised e)]).
Proof.
  intros Hl Hx He. unfold _save_df, try_except_else, DataFrame_to_excel, lift.
  unfold_monad. rewrite Hx. cbn. rewrite He. cbn. rewrite Hl. reflexivity.
Qed.

(** Serialisation raised something else: no call, and the exception leaves
    the worker. *)
Lemma save_df_uncaught `{Platform} st df p e fs' :
  to_excel df p (fs (world st)) = (Raised e, fs') →
  issubclass e Exception = false →
  _save_df df p st = (Raised e, after_save st fs' []).
Proof.
  intros Hx He. unfold _save_df, try_except_else, DataFrame_to_excel, lift.
  unfold_monad. rewrite Hx. cbn. rewrite He. unfold after_save.
  rewrite app_nil_r. reflexivity.
Qed.

(** ** Construction: __init__ and setup_logger *)

(** [super().__init__()] followed by the first assignment: the pool at its
    defaults, whatever the instance held, and the typing expression in
    [logger]. *)
Lemma init_prologue_eq `{Platform} st :
  init_prologue st =
    (Returned tt, {| self := default_pool TypingUnion; world := world st |}).
Proof.
  unfold init_prologue, ThreadPoolExecutor__init__, setattr_logger.
  destruct (decide _) as [Hlen | _]; [cbn in Hlen; lia |].
  destruct (decide _) as [_ | Hdom]; [| exfalso; apply Hdom; set_solver].
  reflexivity.
Qed.

Lemma getLogger_eq `{Platform} st :
  getLogger __name__ st =
    (Returned (NamedLogger __name__),
     {| self := self st;
        world := {| fs := fs (world st);
                    logging := logging_with_chosen None (logging (world st));
                    log_calls := log_calls (world st) |} |}).
Proof.
  unfold getLogger, set_logging, logging_with_chosen, logging_getLogger.
  unfold_monad. cbn. destruct (loggerDict _ !! _); reflexivity.
Qed.

(** No log file: no handler is made and nothing is opened. *)
Lemma setup_logger_without_logfile `{Platform} lg lf st :
  truthy lf = false →
  setup_logger lg lf st =
    (Returned PyNone,
     {| self := with_logger (self st) (LoggerValue (chosen_logger lg));
        world := {| fs := fs (world st);
                    logging := logging_basicConfig NOTSET
                      (logging_with_chosen lg (logging (world st)));
                    log_calls := log_calls (world st) |} |}).
Proof.
  intros Hlf. unfold setup_logger. unfold mbind at 1, M_bind.
  destruct lg as [l |]; [unfold mret at 1, M_ret | rewrite getLogger_eq].
  all: destruct lf as [path |]; [rewrite Hlf |]; reflexivity.
Qed.

(** A log file that opens: its handler is added to the chosen logger. *)
Lemma setup_logger_opened `{Platform} lg p st fs' :
  truthy (Some p) = true →
  open_append p (fs (world st)) = Returned fs' →
  setup_logger lg (Some p) st =
    (Returned PyNone,
     {| self := with_logger (self st) (LoggerValue (chosen_logger lg));
        world := {| fs := fs';
                    logging := logging_basicConfig NOTSET
                      (Logger_addHandler (chosen_logger lg) (FileHandler p)
                         (logging_with_chosen lg (logging (world st))));
                    log_calls := log_calls (world st) |} |}).
Proof.
  intros Hlf Hopen. unfold setup_logger. unfold mbind at 1, M_bind.
  destruct lg as [l |]; [unfold mret at 1, M_ret | rewrite getLogger_eq].
  all: rewrite Hlf; unfold FileHandler_new, addHandler, basicConfig, set_logging;
    unfold_monad; cbn; rewrite Hopen; reflexivity.
Qed.

(** A log file that does not open: the error of [open] leaves
    [setup_logger] before [basicConfig] and before the final assignment. *)
Lemma setup_logger_open_failed `{Platform} lg p st e :
  truthy (Some p) = true →
  open_append p (fs (world st)) = Raised e →
  setup_logger lg (Some p) st =
    (Raised e,
     {| self := self st;
        world := {| fs := fs (world st);
                    logging := logging_with_chosen lg (logging (world st));
                    log_calls := log_calls (world st) |} |}).
Proof.
  intros Hlf Hopen. unfold setup_logger. unfold mbind at 1, M_bind.
  destruct lg as [l |]; [unfold mret at 1, M_ret | rewrite getLogger_eq].
  all: rewrite Hlf; unfold FileHandler_new, addHandler, basicConfig, set_logging;
    unfold_monad; cbn; rewrite Hopen; try reflexivity.
  destruct st as [s [f g c]]; reflexivity.
Qed.

(** The three ways a construction ends. *)
Lemma AsyncIO_new_without_logfile `{Platform} lg lf args kwargs w :
  truthy lf = false →
  AsyncIO_new lg lf args kwargs w =
    (Returned (default_pool (LoggerValue (chosen_logger lg))),
     {| fs := fs w;
        logging := logging_basicConfig NOTSET (logging_with_chosen lg (logging w));
        log_calls := log_calls w |}).
Proof.
  intros Hlf. unfold AsyncIO_new, __init__.
  unfold mbind at 1, M_bind. rewrite init_prologue_eq.
  unfold mbind, M_bind. rewrite setup_logger_without_logfile by exact Hlf.
  reflexivity.
Qed.

Lemma AsyncIO_new_opened `{Platform} lg p args kwargs w fs' :
  truthy (Some p) = true →
  open_append p (fs w) = Returned fs' →
  AsyncIO_new lg (Some p) args kwargs w =
    (Returned (default_pool (LoggerValue (chosen_logger lg))),
     {| fs := fs';
        logging := logging_basicConfig NOTSET
          (Logger_addHandler (chosen_logger lg) (FileHandler p)
             (logging_with_chosen lg (logging w)));
        log_calls := log_calls w |}).
Proof.
  intros Hlf Hopen. unfold AsyncIO_new, __init__.
  unfold mbind at 1, M_bind. rewrite init_prologue_eq.
  unfold mbind, M_bind. erewrite setup_logger_opened by eassumption.
  reflexivity.
Qed.

Lemma AsyncIO_new_open_failed `{Platform} lg p args kwargs w e :
  truthy (Some p) = true →
  open_append p (fs w) = Raised e →
  AsyncIO_new lg (Some p) args kwargs w =
    (Raised e,
     {| fs := fs w;
        logging := logging_with_chosen lg (logging w);
        log_calls := log_calls w |}).
Proof.
  intros Hlf Hopen. unfold AsyncIO_new, __init__.
  unfold mbind at 1, M_bind. rewrite init_prologue_eq.
  unfold mbind, M_bind. erewrite setup_logger_open_failed by eassumption.
  reflexivity.
Qed.

(** ** Handlers and levels through the logging calls *)

Lemma lookup_logging_with_chosen lg l g :
  lookup_logger l (logging_with_chosen lg g) = lookup_logger l g.
Proof.
  destruct lg as [l0 |]; [reflexivity |].
  unfold logging_with_chosen, logging_getLogger.
  destruct (loggerDict g !! __name__) as [x |] eqn:Hx; [reflexivity |].
  destruct l as [| n]; [reflexivity |]. cbn.
  destruct (decide (n = __name__)) as [-> | Hne].
  - rewrite lookup_insert_eq, Hx. reflexivity.
  - rewrite lookup_insert_ne by congruence. reflexivity.
Qed.

Lemma root_logging_with_chosen lg g :
  root (logging_with_chosen lg g) = root g.
Proof. apply (lookup_logging_with_chosen lg RootLogger). Qed.

Lemma registered_logging_with_chosen g :
  is_Some (loggerDict (logging_with_chosen None g) !! __name__).
Proof.
  unfold logging_with_chosen, logging_getLogger.
  destruct (loggerDict g !! __name__) as [x |] eqn:Hx; cbn.
  - rewrite Hx. eauto.
  - rewrite lookup_insert_eq. eauto.
Qed.

Lemma lookup_addHandler_same l h g :
  lookup_logger l (Logger_addHandler l h g) =
    {| level := level (lookup_logger l g);
       handlers := handlers (lookup_logger l g) ++ [h];
       disabled := disabled (lookup_logger l g) |}.
Proof.
  destruct l as [| n]; cbn; [reflexivity |].
  rewrite lookup_insert_eq. reflexivity.
Qed.

Lemma lookup_addHandler_other l l' h g :
  l ≠ l' → lookup_logger l (Logger_addHandler l' h g) = lookup_logger l g.
Proof.
  intros Hne. destruct l as [| n], l' as [| n']; cbn; try reflexivity.
  - congruence.
  - rewrite lookup_insert_ne by congruence. reflexivity.
Qed.

Lemma loggerDict_basicConfig lvl g :
  loggerDict (logging_basicConfig lvl g) = loggerDict g.
Proof. unfold logging_basicConfig. destruct (handlers (root g)); reflexivity. Qed.

Lemma lookup_named_basicConfig lvl n g :
  lookup_logger (NamedLogger n) (logging_basicConfig lvl g) =
    lookup_logger (NamedLogger n) g.
Proof. cbn. rewrite loggerDict_basicConfig. reflexivity. Qed.

(** [basicConfig] on a root logger that has a handler changes nothing. *)
Lemma basicConfig_configured lvl g :
  handlers (root g) ≠ [] → logging_basicConfig lvl g = g.
Proof.
  unfold logging_basicConfig. destruct (handlers (root g)); [congruence | reflexivity].
Qed.

(** [basicConfig] on a root logger without handlers sets its level. *)
Lemma basicConfig_unconfigured lvl g :
  handlers (root g) = [] →
  root (logging_basicConfig lvl g) =
    {| level := lvl; handlers := [StreamHandler]; disabled := disabled (root g) |}.
Proof. unfold logging_basicConfig. intros ->. reflexivity. Qed.

(** No logging call of the constructor takes a handler away. *)
Lemma handlers_basicConfig_prefix lvl l g :
  handlers (lookup_logger l g) `prefix_of`
    handlers (lookup_logger l (logging_basicConfig lvl g)).
Proof.
  destruct l as [| n].
  - unfold logging_basicConfig. cbn.
    destruct (handlers (root g)) eqn:Hh; cbn; [apply prefix_nil | by rewrite Hh].
  - rewrite lookup_named_basicConfig. reflexivity.
Qed.

Lemma handlers_addHandler_prefix l l' h g :
  handlers (lookup_logger l g) `prefix_of`
    handlers (lookup_logger l (Logger_addHandler l' h g)).
Proof.
  destruct (decide (l = l')) as [-> | Hne].
  - rewrite lookup_addHandler_same. cbn. apply prefix_app_r. reflexivity.
  - rewrite lookup_addHandler_other by exact Hne. reflexivity.
Qed.

(** * Properties of the specification *)

(** ** The worker *)





(** C10: when serialisation raises an exception that is not an instance of
    [Exception], [_save_df] makes no logging call, neither [error] nor
    [info], and the exception leaves the function. *)
Theorem save_df_lets_base_exceptions_through `{Platform} st df p e fs' :
  to_excel df p (fs (world st)) = (Raised e, fs') →
  issubclass e Exception = false →
  _save_df df p st = (Raised e, after_save st fs' [])
  ∧ log_calls (world (snd (_save_df df p st))) = log_calls (world st).
Proof.
  intros Hx He. rewrite (save_df_uncaught st df p e fs' Hx He).
  split; [reflexivity |]. cbn. apply app_nil_r.
Qed.

Lemma save_df_lets_base_exceptions_through_witness :
  @_save_df sample_platform (RaisingFrame SystemExit) "/data/out.xlsx" sample_state =
    (Raised SystemExit, after_save sample_state sample_fs [])
  ∧ log_calls (world (snd (@_save_df sample_platform (RaisingFrame SystemExit)
       "/data/out.xlsx" sample_state))) = log_calls (world sample_state).
Proof.
  apply (@save_df_lets_base_exceptions_through sample_platform sample_state
           (RaisingFrame SystemExit) "/data/out.xlsx" SystemExit sample_fs);
    reflexivity.
Defined.

(** The classes that C10 names are outside [Exception], and so is every
    class derived from them. *)
Lemma base_exceptions_outside_Exception :
  issubclass KeyboardInterrupt Exception = false
  ∧ issubclass SystemExit Exception = false
  ∧ issubclass GeneratorExit Exception = false
  ∧ issubclass (UserDefined "Abort" SystemExit) Exception = false.
Proof. repeat split. Qed.




(** No second try: where every call of serialisation fails and is counted,
    the count after one task is one. *)
Lemma save_df_tries_once :
  ∀ st : @State counting_platform,
    logger (self st) = LoggerValue RootLogger →
    fs (world (snd (@_save_df counting_platform tt "/nowhere/out.xlsx" st))) =
      S (fs (world st)).
Proof.
  intros st Hl.
  rewrite (@save_df_caught counting_platform st tt "/nowhere/out.xlsx" RootLogger
             OSError (S (fs (world st))) Hl eq_refl eq_refl).
  reflexivity.
Qed.

(** Whatever serialisation does and whatever [logger] holds, one run of
    [_save_df] leaves the instance and the logging configuration as they
    were and adds at most one logging call, after the earlier ones. *)
Theorem save_df_frame `{Platform} st df p :
  self (snd (_save_df df p st)) = self st
  ∧ logging (world (snd (_save_df df p st))) = logging (world st)
  ∧ ∃ c, log_calls (world (snd (_save_df df p st))) = log_calls (world st) ++ c
         ∧ (length c ≤ 1)%nat.
Proof.
  unfold _save_df, try_except_else, DataFrame_to_excel, lift,
    Logger_error, Logger_info, Logger_log.
  unfold_monad. cbn.
  destruct (to_excel df p (fs (world st))) as [[v | e] fs']; cbn.
  all: try destruct (issubclass e Exception); cbn.
  all: try destruct (logger (self st)); cbn.
  all: split; [reflexivity | split; [reflexivity |]].
  all: first [ exists []; split; [by rewrite app_nil_r | cbn; lia]
             | eexists [_]; split; [reflexivity | cbn; lia] ].
Qed.

(** ** Enqueueing *)

(** C3: [queue_save_df] never hands back the future that [submit] made.
    Whatever it returns is [None]; on a pool that accepts work (not shut
    down) it returns [None] for every frame and path, having put exactly
    one work item for [_save_df] with these arguments on the queue, and
    without touching the file system or the log: the write has not run,
    and its outcome cannot be read off the returned value. *)
Theorem queue_save_df_returns_no_value `{Platform} st df p :
  (∀ v st', queue_save_df df p st = (Returned v, st') → v = PyNone)
  ∧ (_shutdown (self st) = false →
     ThreadPoolExecutor_submit bound_save_df df p st =
       (Returned (PyFuture (length (_work_queue (self st)))),
        {| self := enqueued (self st) df p; world := world st |})
     ∧ queue_save_df df p st =
       (Returned PyNone,
        {| self := enqueued (self st) df p; world := world st |})).
Proof.
  unfold queue_save_df, ThreadPoolExecutor_submit, enqueued. unfold_monad. cbn.
  destruct (_shutdown (self st)) eqn:Hs; cbn.
  - split; [| discriminate]. intros v st' Heq. discriminate Heq.
  - split.
    + intros v st' Heq. injection Heq as <- _. reflexivity.
    + intros _. split; reflexivity.
Qed.

Lemma queue_save_df_returns_no_value_witness :
  @queue_save_df sample_platform (Table 2 3) "/data/out.xlsx" sample_state =
    (Returned PyNone,
     @mkState sample_platform
       (enqueued (self sample_state) (Table 2 3) "/data/out.xlsx")
       (world sample_state)).
Proof.
  apply (proj2 (@queue_save_df_returns_no_value sample_platform sample_state
                  (Table 2 3) "/data/out.xlsx")).
  reflexivity.
Defined.

(** After [shutdown], [submit] raises and so does [queue_save_df]: still no
    value is returned, and nothing is queued. *)
Lemma queue_save_df_after_shutdown `{Platform} st df p :
  _shutdown (self st) = true →
  queue_save_df df p st = (Raised RuntimeError, st).
Proof.
  intros Hs. unfold queue_save_df, ThreadPoolExecutor_submit. unfold_monad.
  cbn. rewrite Hs. reflexivity.
Qed.

(** ** Construction *)

(** C5: constructing without a log file ([None], or the empty string,
    which [if logfile:] treats alike) never fails; constructing with a log
    file fails exactly when the file cannot be opened for the handler. *)
Theorem construction_fails_iff_logfile_unopenable `{Platform} lg lf args kwargs w :
  (truthy lf = false →
     ∃ s w', AsyncIO_new lg lf args kwargs w = (Returned s, w'))
  ∧ (∀ p, lf = Some p → truthy lf = true →
       ((∃ e w', AsyncIO_new lg lf args kwargs w = (Raised e, w'))
        ↔ (∃ e, open_append p (fs w) = Raised e))).
Proof.
  split.
  - intros Hlf. rewrite AsyncIO_new_without_logfile by exact Hlf. eauto.
  - intros p -> Hlf. destruct (open_append p (fs w)) as [fs' | e] eqn:Hopen.
    + rewrite (AsyncIO_new_opened lg p args kwargs w fs' Hlf Hopen).
      split; [intros (e & w' & Heq) | intros (e & Heq)]; discriminate Heq.
    + rewrite (AsyncIO_new_open_failed lg p args kwargs w e Hlf Hopen).
      split; eauto.
Qed.

Lemma construction_fails_iff_logfile_unopenable_witness :
  (∃ s w', @AsyncIO_new sample_platform None None [] ∅ fresh_world = (Returned s, w'))
  ∧ ((∃ e w', @AsyncIO_new sample_platform None (Some "/nowhere/run.log") [] ∅
                fresh_world = (Raised e, w'))
     ↔ (∃ e, @open_append sample_platform "/nowhere/run.log" (fs fresh_world) = Raised e)).
Proof.
  split.
  - apply (proj1 (@construction_fails_iff_logfile_unopenable sample_platform
                    None None [] ∅ fresh_world)).
    reflexivity.
  - apply (proj2 (@construction_fails_iff_logfile_unopenable sample_platform
                    None (Some "/nowhere/run.log") [] ∅ fresh_world)
             "/nowhere/run.log"); reflexivity.
Defined.

(** C6: when construction completes, the attribute [logger] holds the
    logger that was passed in, or the module's logger, registered under
    the module's name, when none was; with a log file, the handlers of
    that logger are the ones it had followed by a [FileHandler] for the
    file; and no logger has lost a handler. *)
Theorem setup_logger_chooses_and_extends `{Platform} lg lf args kwargs w s w' :
  AsyncIO_new lg lf args kwargs w = (Returned s, w') →
  logger s = LoggerValue (chosen_logger lg)
  ∧ (lg = None →
       chosen_logger lg = NamedLogger __name__
       ∧ is_Some (loggerDict (logging w') !! __name__))
  ∧ (∀ p, lf = Some p → truthy lf = true →
       handlers (lookup_logger (chosen_logger lg) (logging w')) =
         handlers (lookup_logger (chosen_logger lg) (logging w)) ++ [FileHandler p])
  ∧ (∀ l, handlers (lookup_logger l (logging w)) `prefix_of`
            handlers (lookup_logger l (logging w'))).
Proof.
  intros Hnew. destruct (truthy lf) eqn:Hlf.
  - destruct lf as [p |]; [| discriminate Hlf].
    destruct (open_append p (fs w)) as [fs' | e] eqn:Hopen.
    2: { rewrite (AsyncIO_new_open_failed lg p args kwargs w e Hlf Hopen) in Hnew.
         discriminate Hnew. }
    rewrite (AsyncIO_new_opened lg p args kwargs w fs' Hlf Hopen) in Hnew.
    injection Hnew as <- <-. cbn [logger default_pool logging].
    split; [reflexivity |]. split; [| split].
    + intros ->. split; [reflexivity |].
      rewrite loggerDict_basicConfig. cbn.
      rewrite lookup_insert_eq. eauto.
    + intros p' [= <-] _.
      assert (Hsame : lookup_logger (chosen_logger lg)
                (logging_basicConfig NOTSET
                   (Logger_addHandler (chosen_logger lg) (FileHandler p)
                      (logging_with_chosen lg (logging w)))) =
              lookup_logger (chosen_logger lg)
                (Logger_addHandler (chosen_logger lg) (FileHandler p)
                   (logging_with_chosen lg (logging w)))).
      { destruct (chosen_logger lg) as [| n].
        - rewrite basicConfig_configured; [reflexivity |]. cbn.
          intros Hnil. apply app_eq_nil in Hnil as [_ Hnil]. discriminate Hnil.
        - apply lookup_named_basicConfig. }
      rewrite Hsame, lookup_addHandler_same. cbn.
      rewrite lookup_logging_with_chosen. reflexivity.
    + intros l. etrans; [| apply handlers_basicConfig_prefix].
      etrans; [| apply handlers_addHandler_prefix].
      rewrite lookup_logging_with_chosen. reflexivity.
  - rewrite (AsyncIO_new_without_logfile lg lf args kwargs w Hlf) in Hnew.
    injection Hnew as <- <-. cbn [logger default_pool logging].
    split; [reflexivity |]. split; [| split].
    + intros ->. split; [reflexivity |].
      rewrite loggerDict_basicConfig. apply registered_logging_with_chosen.
    + intros p _ Hp. discriminate Hp.
    + intros l. etrans; [| apply handlers_basicConfig_prefix].
      rewrite lookup_logging_with_chosen. reflexivity.
Qed.

Lemma setup_logger_chooses_and_extends_witness :
  handlers (lookup_logger (NamedLogger __name__) (logging (snd sample_with_logfile))) =
    handlers (lookup_logger (NamedLogger __name__) (logging fresh_world))
      ++ [FileHandler "run.log"].
Proof.
  pose proof (@setup_logger_chooses_and_extends sample_platform
                None (Some "run.log") [] ∅ fresh_world
                (default_pool (LoggerValue (NamedLogger __name__)))
                (snd sample_with_logfile) eq_refl) as (_ & _ & Hh & _).
  exact (Hh "run.log" eq_refl eq_refl).
Defined.

(** C7 fails on the code: [__init__] calls [super().__init__()] without
    arguments, so [AsyncIO(max_workers=1)] has the default number of
    workers (12 on 8 processors), where [ThreadPoolExecutor(max_workers=1)]
    has one. *)
Theorem max_workers_keyword_is_dropped :
  (∃ st, @ThreadPoolExecutor__init__ sample_platform [] {["max_workers" := AInt 1]}
           (@mkState sample_platform object_new fresh_world) = (Returned PyNone, st)
         ∧ _max_workers (self st) = 1%nat)
  ∧ (∃ s w, sample_one_worker = (Returned s, w) ∧ _max_workers s = 12%nat).
Proof.
  split.
  - eexists. split; [vm_compute; reflexivity | reflexivity].
  - eexists _, _. split; [vm_compute; reflexivity | reflexivity].
Qed.

(** The same for every argument: the constructed instance and the world do
    not depend on [args] and [kwargs]. *)
Lemma init_ignores_pool_arguments `{Platform} lg lf args kwargs w :
  AsyncIO_new lg lf args kwargs w = AsyncIO_new lg lf [] ∅ w.
Proof. reflexivity. Qed.


(** C8 as stated fails: constructed on the root logger with a log file, in
    a fresh interpreter, the instance leaves the root level at [WARNING];
    [INFO] records are not let through. *)
Lemma global_level_counterexample :
  ∃ s w', sample_on_root = (Returned s, w')
          ∧ level (root (logging w')) = WARNING
          ∧ root_isEnabledFor INFO w' = false
          ∧ ¬ captures_all_levels w'.
Proof.
  eexists _, _. split; [vm_compute; reflexivity |].
  split; [reflexivity |]. split; [reflexivity |].
  intros Hall. specialize (Hall INFO eq_refl). vm_compute in Hall.
  discriminate Hall.
Qed.

(** C8, as amended: when construction completes and the root logger has no
    handler at the call of [basicConfig] (it had none before, and the
    constructor was not given the root logger together with a log file),
    the root level is [NOTSET] and records of every level are let through;
    otherwise [basicConfig] does nothing and the root level is what it
    was. *)
Theorem global_level_set_when_unconfigured `{Platform} lg lf args kwargs w s w' :
  AsyncIO_new lg lf args kwargs w = (Returned s, w') →
  (handlers (root (logging w)) = [] →
   ¬ (lg = Some RootLogger ∧ truthy lf = true) →
   level (root (logging w')) = NOTSET ∧ captures_all_levels w')
  ∧ (handlers (root (logging w)) ≠ [] ∨ (lg = Some RootLogger ∧ truthy lf = true) →
     level (root (logging w')) = level (root (logging w))).
Proof.
  intros Hnew.
  assert (Hall : ∀ x : World, level (root (logging x)) = NOTSET → captures_all_levels x).
  { intros x Hx lvl Hlvl. unfold root_isEnabledFor. rewrite Hx.
    apply Z.leb_le. unfold NOTSET. lia. }
  destruct (truthy lf) eqn:Hlf.
  - destruct lf as [p |]; [| discriminate Hlf].
    destruct (open_append p (fs w)) as [fs' | e] eqn:Hopen.
    2: { rewrite (AsyncIO_new_open_failed lg p args kwargs w e Hlf Hopen) in Hnew.
         discriminate Hnew. }
    rewrite (AsyncIO_new_opened lg p args kwargs w fs' Hlf Hopen) in Hnew.
    injection Hnew as <- <-. cbn [logging].
    destruct (decide (chosen_logger lg = RootLogger)) as [Hroot | Hnamed].
    + (* the handler went to the root logger: basicConfig finds it configured *)
      assert (Hlg : lg = Some RootLogger).
      { destruct lg as [[| n] |]; cbn in Hroot; congruence. }
      split; [intros _ Hno; exfalso; apply Hno; split; [exact Hlg | reflexivity] |].
      intros _. rewrite Hroot, basicConfig_configured.
      * cbn. rewrite root_logging_with_chosen. reflexivity.
      * cbn. intros Hnil. apply app_eq_nil in Hnil as [_ Hnil]. discriminate Hnil.
    + (* the handler went to a named logger: the root logger is as before *)
      assert (Hr : root (Logger_addHandler (chosen_logger lg) (FileHandler p)
                     (logging_with_chosen lg (logging w))) = root (logging w)).
      { change (lookup_logger RootLogger
                  (Logger_addHandler (chosen_logger lg) (FileHandler p)
                     (logging_with_chosen lg (logging w))) = root (logging w)).
        rewrite lookup_addHandler_other by congruence.
        apply (lookup_logging_with_chosen lg RootLogger). }
      split.
      * intros Hnil _. rewrite basicConfig_unconfigured by (rewrite Hr; exact Hnil).
        split; [reflexivity |]. apply Hall. cbn.
        rewrite basicConfig_unconfigured by (rewrite Hr; exact Hnil). reflexivity.
      * intros [Hcfg | [Hlg _]].
        -- rewrite basicConfig_configured by (rewrite Hr; exact Hcfg).
           rewrite Hr. reflexivity.
        -- subst lg. cbn in Hnamed. congruence.
  - rewrite (AsyncIO_new_without_logfile lg lf args kwargs w Hlf) in Hnew.
    injection Hnew as <- <-. cbn [logging]. split.
    + intros Hnil _.
      rewrite basicConfig_unconfigured by (rewrite root_logging_with_chosen; exact Hnil).
      split; [reflexivity |]. apply Hall. cbn.
      rewrite basicConfig_unconfigured by (rewrite root_logging_with_chosen; exact Hnil).
      reflexivity.
    + intros [Hcfg | [_ Habs]]; [| discriminate Habs].
      rewrite basicConfig_configured by (rewrite root_logging_with_chosen; exact Hcfg).
      rewrite root_logging_with_chosen. reflexivity.
Qed.

Lemma global_level_set_when_unconfigured_witness :
  level (root (logging (snd sample_with_logfile))) = NOTSET
  ∧ @captures_all_levels sample_platform (snd sample_with_logfile).
Proof.
  pose proof (@global_level_set_when_unconfigured sample_platform
                None (Some "run.log") [] ∅ fresh_world
                (default_pool (LoggerValue (NamedLogger __name__)))
                (snd sample_with_logfile) eq_refl) as [Hset _].
  apply Hset; [reflexivity |]. intros [Hlg _]. discriminate Hlg.
Defined.



(** * Further properties of the methods *)

(** ** Enqueueing in a row *)

(** After [shutdown], a call of [queue_save_df] raises the
    [RuntimeError] of [submit] to its caller and leaves the instance and
    the world as they were: the frame is not queued and nothing is
    logged. *)
Theorem queue_save_df_refused_after_shutdown `{Platform} st df p :
  _shutdown (self st) = true →
  queue_save_df df p st = (Raised RuntimeError, st)
  ∧ ∀ rest, queue_all ((df, p) :: rest) st = (Raised RuntimeError, st).
Proof.
  intros Hs.
  assert (Hq : queue_save_df df p st = (Raised RuntimeError, st)).
  { unfold queue_save_df, ThreadPoolExecutor_submit. unfold_monad.
    cbn. rewrite Hs. reflexivity. }
  split; [exact Hq |]. intros rest. cbn [queue_all].
  unfold mbind, M_bind. rewrite Hq. reflexivity.
Qed.

Lemma queue_save_df_refused_after_shutdown_witness :
  @queue_save_df sample_platform (Table 2 3) "/data/out.xlsx" sample_shut_down =
    (Raised RuntimeError, sample_shut_down)
  ∧ ∀ rest, @queue_all sample_platform ((Table 2 3, "/data/out.xlsx") :: rest)
              sample_shut_down = (Raised RuntimeError, sample_shut_down).
Proof.
  apply (@queue_save_df_refused_after_shutdown sample_platform sample_shut_down
           (Table 2 3) "/data/out.xlsx").
  reflexivity.
Defined.

(** ** The worker *)

Lemma after_save_nil `{Platform} st : after_save st (fs (world st)) [] = st.
Proof. destruct st as [s [f g c]]. unfold after_save. cbn. by rewrite app_nil_r. Qed.

Lemma after_save_twice `{Platform} st f1 c1 f2 c2 :
  after_save (after_save st f1 c1) f2 c2 = after_save st f2 (c1 ++ c2).
Proof. unfold after_save. cbn. by rewrite app_assoc. Qed.

(** Every run of [_save_df] ends in a state of the form [after_save], with
    at most one call. *)
Lemma save_df_total `{Platform} st df p :
  ∃ r c, _save_df df p st =
           (r, after_save st (snd (to_excel df p (fs (world st)))) c)
         ∧ (length c ≤ 1)%nat.
Proof.
  destruct (to_excel df p (fs (world st))) as [[v | e] fs'] eqn:Hx; cbn [snd].
  - destruct (logger (self st)) as [| | l] eqn:Hl.
    3: { eexists _, [_]. split; [eapply save_df_returned; eassumption | cbn; lia]. }
    all: exists (Raised AttributeError), []; split; [| cbn; lia].
    all: unfold _save_df, try_except_else, DataFrame_to_excel, lift, Logger_info,
           Logger_log, after_save; unfold_monad; rewrite Hx; cbn; rewrite Hl;
           cbn; by rewrite app_nil_r.
  - destruct (issubclass e Exception) eqn:He.
    + destruct (logger (self st)) as [| | l] eqn:Hl.
      3: { eexists _, [_]. split; [eapply save_df_caught; eassumption | cbn; lia]. }
      all: exists (Raised AttributeError), []; split; [| cbn; lia].
      all: unfold _save_df, try_except_else, DataFrame_to_excel, lift, Logger_error,
             Logger_log, after_save; unfold_monad; rewrite Hx; cbn; rewrite He; cbn;
             rewrite Hl; cbn; by rewrite app_nil_r.
    + exists (Raised e), []. split; [| cbn; lia].
      apply save_df_uncaught; assumption.
Qed.

(** With a logger in place and a serialisation that raises only errors,
    a run of [_save_df] returns [None] after one call that reports its
    path. *)
Lemma save_df_reports `{Platform} st df p l :
  raises_only_errors →
  logger (self st) = LoggerValue l →
  ∃ c, _save_df df p st =
         (Returned PyNone, after_save st (snd (to_excel df p (fs (world st)))) [c])
       ∧ on_logger c = l ∧ args c = [p]
       ∧ ((levelno c = INFO ∧ msg c = "Saved %s")
          ∨ (levelno c = ERROR ∧ msg c = "Unable to save %s")).
Proof.
  intros Honly Hl.
  destruct (to_excel df p (fs (world st))) as [[v | e] fs'] eqn:Hx; cbn [snd].
  - eexists. split; [eapply save_df_returned; eassumption |]. cbn. auto.
  - eexists. split; [eapply save_df_caught; eauto |]. cbn. auto.
Qed.

(** The worker outlives every task: whatever the items of a list do
    (return, raise an error, raise anything else, fail for want of a
    logger), running them in order yields one outcome per item, leaves the
    instance and the logging configuration unchanged, and adds at most one
    logging call per item. *)
Theorem run_items_never_raises `{Platform} items : ∀ st,
  ∃ outcomes fs' calls,
    run_items items st = (Returned outcomes, after_save st fs' calls)
    ∧ length outcomes = length items
    ∧ (length calls ≤ length items)%nat.
Proof.
  induction items as [| i rest IH]; intros st.
  - exists [], (fs (world st)), []. rewrite after_save_nil. repeat split. cbn. lia.
  - destruct (save_df_total st (fn_df i) (fn_path i)) as (r & c & Hrun & Hc).
    destruct (IH (after_save st (snd (to_excel (fn_df i) (fn_path i) (fs (world st)))) c))
      as (rs & fs' & cs & Hrest & Hlen & Hcs).
    exists (r :: rs), fs', (c ++ cs).
    cbn [run_items]. unfold mbind, M_bind, WorkItem_run.
    destruct (fn i). rewrite Hrun, Hrest, after_save_twice.
    split; [reflexivity |]. cbn. rewrite length_app. split; lia.
Qed.

Lemma run_items_reports `{Platform} items l : ∀ st,
  raises_only_errors →
  logger (self st) = LoggerValue l →
  ∃ fs' calls,
    run_items items st =
      (Returned ((λ _, Returned PyNone) <$> items), after_save st fs' calls)
    ∧ Forall2 (reports l) items calls.
Proof.
  induction items as [| i rest IH]; intros st Honly Hl.
  - exists (fs (world st)), []. rewrite after_save_nil. split; [reflexivity | constructor].
  - destruct (save_df_reports st (fn_df i) (fn_path i) l Honly Hl)
      as (c & Hrun & Hon & Hargs & Htpl).
    destruct (IH (after_save st (snd (to_excel (fn_df i) (fn_path i) (fs (world st)))) [c])
                Honly Hl) as (fs' & cs & Hrest & Hall).
    exists fs', (c :: cs).
    cbn [run_items]. unfold mbind, M_bind, WorkItem_run.
    destruct (fn i). rewrite Hrun, Hrest, after_save_twice.
    split; [reflexivity |]. constructor; [| exact Hall].
    repeat split; assumption.
Qed.

(** One call per task: on an instance whose [logger] holds a logger, with
    a serialisation that raises only errors, running a list of items in
    order returns [None] for each of them and adds exactly one logging
    call per item, in the order of the items, each on that logger with the
    item's path and the template of its outcome.  A failed task does not
    keep the later ones from running. *)
Theorem run_items_one_call_each `{Platform} items l st :
  raises_only_errors →
  logger (self st) = LoggerValue l →
  ∃ fs' calls,
    run_items items st =
      (Returned ((λ _, Returned PyNone) <$> items), after_save st fs' calls)
    ∧ Forall2 (reports l) items calls
    ∧ length calls = length items.
Proof.
  intros Honly Hl.
  destruct (run_items_reports items l st Honly Hl) as (fs' & calls & Hrun & Hall).
  exists fs', calls. split; [exact Hrun |]. split; [exact Hall |].
  symmetry. eapply Forall2_length. exact Hall.
Qed.

Lemma table_raises_only_errors : @raises_only_errors table_platform.
Proof.
  intros df p s e s' Hx. cbn in Hx.
  destruct (posix_parent_is_dir p s); [discriminate Hx |].
  injection Hx as <- _. reflexivity.
Defined.

Lemma run_items_one_call_each_witness :
  ∃ fs' calls,
    @run_items table_platform (@new_items table_platform 0 table_requests) table_state =
      (Returned ((λ _, Returned PyNone) <$> @new_items table_platform 0 table_requests),
       after_save table_state fs' calls)
    ∧ Forall2 (@reports table_platform (NamedLogger __name__))
        (@new_items table_platform 0 table_requests) calls
    ∧ length calls = length (@new_items table_platform 0 table_requests).
Proof.
  apply (@run_items_one_call_each table_platform
           (@new_items table_platform 0 table_requests) (NamedLogger __name__) table_state).
  - exact table_raises_only_errors.
  - reflexivity.
Defined.

(** ** More on construction *)

(** The outcome of [setup_logger] by cases, for what it leaves in the
    instance and in the log. *)
Lemma setup_logger_cases `{Platform} lg lf st :
  ∃ r w',
    setup_logger lg lf st =
      (r, {| self := match r with
                     | Returned _ =>
                         with_logger (self st) (LoggerValue (chosen_logger lg))
                     | Raised _ => self st
                     end;
             world := w' |})
    ∧ log_calls w' = log_calls (world st).
Proof.
  destruct (truthy lf) eqn:Hlf.
  - destruct lf as [p |]; [| discriminate Hlf].
    destruct (open_append p (fs (world st))) as [fs' | e] eqn:Hopen.
    + rewrite (setup_logger_opened lg p st fs' Hlf Hopen).
      exists (Returned PyNone). eexists. split; reflexivity.
    + rewrite (setup_logger_open_failed lg p st e Hlf Hopen).
      exists (Raised e). eexists. split; reflexivity.
  - rewrite (setup_logger_without_logfile lg lf st Hlf).
    exists (Returned PyNone). eexists. split; reflexivity.
Qed.

(** [setup_logger] is a public method and can be called again on a live
    instance: whatever its arguments and however it ends, the queued work,
    the shutdown flag and the pool's size are as before, and it makes no
    logging call. *)
Theorem setup_logger_keeps_pool `{Platform} lg lf st :
  _work_queue (self (snd (setup_logger lg lf st))) = _work_queue (self st)
  ∧ _shutdown (self (snd (setup_logger lg lf st))) = _shutdown (self st)
  ∧ _max_workers (self (snd (setup_logger lg lf st))) = _max_workers (self st)
  ∧ log_calls (world (snd (setup_logger lg lf st))) = log_calls (world st).
Proof.
  destruct (setup_logger_cases lg lf st) as (r & w' & Heq & Hlog).
  rewrite Heq. cbn. destruct r; repeat split; assumption.
Qed.

(** After [setup_logger] has returned, the tasks report on the logger it
    chose: a run of [_save_df] (serialisation raising only errors) makes
    its one call on the logger passed in, or on the module's logger when
    none was. *)
Theorem setup_logger_redirects_reports `{Platform} lg lf st v st1 df p :
  raises_only_errors →
  setup_logger lg lf st = (Returned v, st1) →
  ∃ c fs', _save_df df p st1 = (Returned PyNone, after_save st1 fs' [c])
           ∧ on_logger c = chosen_logger lg ∧ args c = [p].
Proof.
  intros Honly Hsetup.
  destruct (setup_logger_cases lg lf st) as (r & w' & Heq & _).
  rewrite Heq in Hsetup. injection Hsetup as -> <-.
  destruct (save_df_reports
              {| self := with_logger (self st) (LoggerValue (chosen_logger lg));
                 world := w' |} df p (chosen_logger lg) Honly eq_refl)
    as (c & Hrun & Hon & Hargs & _).
  exists c. eexists. split; [exact Hrun |]. split; assumption.
Qed.

Lemma setup_logger_redirects_reports_witness :
  ∃ c fs',
    @_save_df table_platform (2%nat, 3%nat) "/data/a.xlsx"
      (snd (@setup_logger table_platform (Some RootLogger) None table_state)) =
      (Returned PyNone,
       after_save (snd (@setup_logger table_platform (Some RootLogger) None table_state))
         fs' [c])
    ∧ on_logger c = RootLogger ∧ args c = ["/data/a.xlsx"].
Proof.
  apply (@setup_logger_redirects_reports table_platform (Some RootLogger) None
           table_state PyNone
           (snd (@setup_logger table_platform (Some RootLogger) None table_state))
           (2%nat, 3%nat) "/data/a.xlsx").
  - exact table_raises_only_errors.
  - reflexivity.
Defined.

(** The outcome of a construction by cases, for everything but the
    logging state. *)
Lemma AsyncIO_new_cases `{Platform} lg lf args kwargs w :
  (truthy lf = false
   ∧ AsyncIO_new lg lf args kwargs w =
       (Returned (default_pool (LoggerValue (chosen_logger lg))),
        {| fs := fs w;
           logging := logging_basicConfig NOTSET (logging_with_chosen lg (logging w));
           log_calls := log_calls w |}))
  ∨ (∃ p fs', lf = Some p ∧ truthy lf = true
       ∧ open_append p (fs w) = Returned fs'
       ∧ AsyncIO_new lg lf args kwargs w =
           (Returned (default_pool (LoggerValue (chosen_logger lg))),
            {| fs := fs';
               logging := logging_basicConfig NOTSET
                 (Logger_addHandler (chosen_logger lg) (FileHandler p)
                    (logging_with_chosen lg (logging w)));
               log_calls := log_calls w |}))
  ∨ (∃ p e, lf = Some p ∧ truthy lf = true
       ∧ open_append p (fs w) = Raised e
       ∧ AsyncIO_new lg lf args kwargs w =
           (Raised e,
            {| fs := fs w;
               logging := logging_with_chosen lg (logging w);
               log_calls := log_calls w |})).
Proof.
  destruct (truthy lf) eqn:Hlf.
  - destruct lf as [p |]; [| discriminate Hlf]. right.
    destruct (open_append p (fs w)) as [fs' | e] eqn:Hopen.
    + left. exists p, fs'. repeat split; [exact Hopen |].
      apply AsyncIO_new_opened; assumption.
    + right. exists p, e. repeat split; [exact Hopen |].
      apply AsyncIO_new_open_failed; assumption.
  - left. split; [reflexivity |]. apply AsyncIO_new_without_logfile. exact Hlf.
Qed.

(** Construction logs nothing, and its only effect on the file system is
    the opening of the log file: for all arguments and however it ends,
    the list of logging calls is as before, and the file system is as
    before or as [open] of the log file left it. *)
Theorem construction_logs_nothing `{Platform} lg lf args kwargs w :
  log_calls (snd (AsyncIO_new lg lf args kwargs w)) = log_calls w
  ∧ (fs (snd (AsyncIO_new lg lf args kwargs w)) = fs w
     ∨ ∃ p, lf = Some p
            ∧ open_append p (fs w) =
                Returned (fs (snd (AsyncIO_new lg lf args kwargs w)))).
Proof.
  destruct (AsyncIO_new_cases lg lf args kwargs w)
    as [[_ Heq] | [(p & fs' & Hlf & _ & Hopen & Heq) | (p & e & _ & _ & _ & Heq)]];
    rewrite Heq; cbn; split; try reflexivity.
  - left. reflexivity.
  - right. exists p. split; assumption.
  - left. reflexivity.
Qed.

(** A construction that fails: the exception is the one [open] raised for
    the log file; the file system and the log are untouched; no logger has
    gained a handler or changed its level ([basicConfig] was not reached,
    so the global level is as before). *)
Theorem failed_construction_is_clean `{Platform} lg lf args kwargs w e w' :
  AsyncIO_new lg lf args kwargs w = (Raised e, w') →
  (∃ p, lf = Some p ∧ open_append p (fs w) = Raised e)
  ∧ fs w' = fs w
  ∧ log_calls w' = log_calls w
  ∧ ∀ l, lookup_logger l (logging w') = lookup_logger l (logging w).
Proof.
  intros Hnew.
  destruct (AsyncIO_new_cases lg lf args kwargs w)
    as [[_ Heq] | [(p & fs' & _ & _ & _ & Heq) | (p & e' & Hlf & _ & Hopen & Heq)]];
    rewrite Heq in Hnew; try discriminate Hnew.
  injection Hnew as <- <-. cbn. split; [eauto |]. repeat split.
  intros l. apply lookup_logging_with_chosen.
Qed.

Lemma failed_construction_is_clean_witness :
  (∃ p, Some "/nowhere/run.log" = Some p
        ∧ @open_append sample_platform p (fs fresh_world) = Raised FileNotFoundError)
  ∧ fs (snd (@AsyncIO_new sample_platform None (Some "/nowhere/run.log") [] ∅ fresh_world))
      = fs fresh_world
  ∧ log_calls (snd (@AsyncIO_new sample_platform None (Some "/nowhere/run.log") [] ∅
                      fresh_world)) = log_calls fresh_world
  ∧ ∀ l, lookup_logger l
           (logging (snd (@AsyncIO_new sample_platform None (Some "/nowhere/run.log")
                            [] ∅ fresh_world))) =
         lookup_logger l (logging fresh_world).
Proof.
  apply (@failed_construction_is_clean sample_platform None (Some "/nowhere/run.log")
           [] ∅ fresh_world FileNotFoundError).
  reflexivity.
Defined.

(** A log file argument that is false for [if logfile:] (the empty string)
    is the same as none: no file is opened and no handler is added. *)
Theorem falsy_logfile_as_omitted `{Platform} lg lf args kwargs w :
  truthy lf = false →
  AsyncIO_new lg lf args kwargs w = AsyncIO_new lg None args kwargs w.
Proof.
  intros Hlf. rewrite (AsyncIO_new_without_logfile lg lf args kwargs w Hlf).
  rewrite (AsyncIO_new_without_logfile lg None args kwargs w eq_refl).
  reflexivity.
Qed.

Lemma falsy_logfile_as_omitted_witness :
  @AsyncIO_new sample_platform None (Some "") [] ∅ fresh_world =
  @AsyncIO_new sample_platform None None [] ∅ fresh_world.
Proof.
  apply (@falsy_logfile_as_omitted sample_platform None (Some "") [] ∅ fresh_world).
  reflexivity.
Defined.

(** ** Several instances *)

Lemma root_handlers_basicConfig lvl g :
  handlers (root (logging_basicConfig lvl g)) ≠ [].
Proof.
  unfold logging_basicConfig. destruct (handlers (root g)) eqn:Hh; cbn.
  - discriminate.
  - rewrite Hh. discriminate.
Qed.

Lemma root_level_addHandler l h g :
  level (root (Logger_addHandler l h g)) = level (root g).
Proof. destruct l; reflexivity. Qed.

Lemma root_handlers_addHandler l h g :
  handlers (root g) ≠ [] → handlers (root (Logger_addHandler l h g)) ≠ [].
Proof.
  intros Hne. destruct l as [| n]; cbn; [| exact Hne].
  intros Hnil. apply app_eq_nil in Hnil as [Hnil _]. contradiction.
Qed.

(** The chosen logger's handlers after the file handler was added and
    [basicConfig] has run. *)
Lemma handlers_chosen_after_add l h g :
  handlers (lookup_logger l (logging_basicConfig NOTSET (Logger_addHandler l h g))) =
    handlers (lookup_logger l g) ++ [h].
Proof.
  destruct l as [| n].
  - rewrite basicConfig_configured.
    + rewrite lookup_addHandler_same. reflexivity.
    + cbn. intros Hnil. apply app_eq_nil in Hnil as [_ Hnil]. discriminate Hnil.
  - rewrite lookup_named_basicConfig, lookup_addHandler_same. reflexivity.
Qed.

(** The global level is settled once: after a construction has completed,
    the root logger has a handler, so the [basicConfig] of every later
    construction does nothing, and the root level stays what it was after
    the first, whatever the later arguments are. *)
Theorem later_constructions_keep_level `{Platform} lg lf args kwargs w s w1 :
  AsyncIO_new lg lf args kwargs w = (Returned s, w1) →
  handlers (root (logging w1)) ≠ []
  ∧ ∀ lg2 lf2 args2 kwargs2 s2 w2,
      AsyncIO_new lg2 lf2 args2 kwargs2 w1 = (Returned s2, w2) →
      level (root (logging w2)) = level (root (logging w1)).
Proof.
  intros Hnew.
  assert (Hcfg : handlers (root (logging w1)) ≠ []).
  { destruct (AsyncIO_new_cases lg lf args kwargs w)
      as [[_ Heq] | [(p & fs' & _ & _ & _ & Heq) | (p & e & _ & _ & _ & Heq)]];
      rewrite Heq in Hnew; try discriminate Hnew;
      injection Hnew as _ <-; cbn; apply root_handlers_basicConfig. }
  split; [exact Hcfg |].
  intros lg2 lf2 args2 kwargs2 s2 w2 Hnew2.
  destruct (AsyncIO_new_cases lg2 lf2 args2 kwargs2 w1)
    as [[_ Heq] | [(p & fs' & _ & _ & _ & Heq) | (p & e & _ & _ & _ & Heq)]];
    rewrite Heq in Hnew2; try discriminate Hnew2;
    injection Hnew2 as _ <-; cbn.
  - rewrite basicConfig_configured by (rewrite root_logging_with_chosen; exact Hcfg).
    rewrite root_logging_with_chosen. reflexivity.
  - rewrite basicConfig_configured.
    + rewrite root_level_addHandler, root_logging_with_chosen. reflexivity.
    + apply root_handlers_addHandler. rewrite root_logging_with_chosen. exact Hcfg.
Qed.

Lemma later_constructions_keep_level_witness :
  handlers (root (logging (snd sample_on_root))) ≠ []
  ∧ ∀ lg2 lf2 args2 kwargs2 s2 w2,
      @AsyncIO_new sample_platform lg2 lf2 args2 kwargs2 (snd sample_on_root) =
        (Returned s2, w2) →
      level (root (logging w2)) = level (root (logging (snd sample_on_root))).
Proof.
  apply (@later_constructions_keep_level sample_platform (Some RootLogger)
           (Some "run.log") [] ∅ fresh_world
           (default_pool (LoggerValue RootLogger)) (snd sample_on_root)).
  reflexivity.
Defined.

(** Instances share their logger, and file handlers pile up on it: two
    constructions with the same [logger] argument (the module's logger
    when it is [None]) and a log file each leave both instances with the
    same logger, which then has both file handlers after the handlers it
    had; with the same file twice, every record is written twice. *)
Theorem file_handlers_accumulate `{Platform} lg p1 p2 a1 k1 a2 k2 w s1 w1 s2 w2 :
  truthy (Some p1) = true →
  truthy (Some p2) = true →
  AsyncIO_new lg (Some p1) a1 k1 w = (Returned s1, w1) →
  AsyncIO_new lg (Some p2) a2 k2 w1 = (Returned s2, w2) →
  logger s1 = LoggerValue (chosen_logger lg)
  ∧ logger s2 = logger s1
  ∧ handlers (lookup_logger (chosen_logger lg) (logging w2)) =
      handlers (lookup_logger (chosen_logger lg) (logging w))
        ++ [FileHandler p1; FileHandler p2].
Proof.
  intros Ht1 Ht2 Hnew1 Hnew2.
  destruct (open_append p2 (fs w1)) as [f2 | e2] eqn:Ho2.
  2: { rewrite (AsyncIO_new_open_failed lg p2 a2 k2 w1 e2 Ht2 Ho2) in Hnew2.
       discriminate Hnew2. }
  rewrite (AsyncIO_new_opened lg p2 a2 k2 w1 f2 Ht2 Ho2) in Hnew2.
  injection Hnew2 as <- <-.
  destruct (open_append p1 (fs w)) as [f1 | e1] eqn:Ho1.
  2: { rewrite (AsyncIO_new_open_failed lg p1 a1 k1 w e1 Ht1 Ho1) in Hnew1.
       discriminate Hnew1. }
  rewrite (AsyncIO_new_opened lg p1 a1 k1 w f1 Ht1 Ho1) in Hnew1.
  injection Hnew1 as <- <-. cbn [logger default_pool logging].
  split; [reflexivity |]. split; [reflexivity |].
  rewrite handlers_chosen_after_add, lookup_logging_with_chosen.
  rewrite handlers_chosen_after_add, lookup_logging_with_chosen.
  rewrite <- app_assoc. reflexivity.
Qed.

Lemma file_handlers_accumulate_witness :
  logger (default_pool (H := sample_platform) (LoggerValue (NamedLogger __name__))) =
    LoggerValue (NamedLogger __name__)
  ∧ logger (default_pool (H := sample_platform) (LoggerValue (NamedLogger __name__))) =
    logger (default_pool (H := sample_platform) (LoggerValue (NamedLogger __name__)))
  ∧ handlers (lookup_logger (NamedLogger __name__)
      (logging (snd (@AsyncIO_new sample_platform None (Some "run.log") [] ∅
                       (snd sample_with_logfile))))) =
      handlers (lookup_logger (NamedLogger __name__) (logging fresh_world))
        ++ [FileHandler "run.log"; FileHandler "run.log"].
Proof.
  apply (@file_handlers_accumulate sample_platform None "run.log" "run.log"
           [] ∅ [] ∅ fresh_world
           (default_pool (LoggerValue (NamedLogger __name__)))
           (snd sample_with_logfile)
           (default_pool (LoggerValue (NamedLogger __name__)))
           (snd (@AsyncIO_new sample_platform None (Some "run.log") [] ∅
                   (snd sample_with_logfile))));
    reflexivity.
Defined.

